(** * Configuration resolution of commitizen (czplus fork)

    A shallow embedding of [commitizen/config/__init__.py]: the resolver
    [read_cfg], the default search [_find_config_from_defaults] and the
    per-file loader [_load_config_from_file], together with the parts of
    [pathlib] they rely on ([Path(...)], [/], [.suffix], [str], [.exists()])
    and a small file-system state.

    Effects are modelled by a state-and-exception monad over [State]: the
    files on disk, the working directory, the answer of the git collaborator
    and a chronological trace of the system calls performed. *)

From Stdlib Require Import Ascii String List Bool Arith Lia.
From stdpp Require Import base option list strings countable gmap.

Import ListNotations.
Local Open Scope string_scope.
Local Open Scope list_scope.

(** ** Python strings *)

Module PyStr.

(** [sub in s] for two [str] values: [sub] occurs in [s] at some offset. *)
Fixpoint contains (sub s : string) : bool :=
  String.prefix sub s
  || match s with
     | EmptyString => false
     | String _ s' => contains sub s'
     end.

(** [s.rfind(c)]: the highest index of [c], [None] standing for Python's -1. *)
Fixpoint rfind (c : ascii) (s : string) : option nat :=
  match s with
  | EmptyString => None
  | String a s' =>
      match rfind c s' with
      | Some i => Some (S i)
      | None => if Ascii.eqb a c then Some 0 else None
      end
  end.

(** [s[i:]] *)
Fixpoint drop (i : nat) (s : string) : string :=
  match i, s with
  | 0, _ => s
  | S _, EmptyString => EmptyString
  | S i', String _ s' => drop i' s'
  end.

(** [s.split(c)] for a one-character separator. *)
Fixpoint split (c : ascii) (s : string) : list string :=
  match s with
  | EmptyString => [EmptyString]
  | String a s' =>
      if Ascii.eqb a c then EmptyString :: split c s'
      else match split c s' with
           | h :: t => String a h :: t
           | [] => [String a EmptyString]
           end
  end.

(** [s.lstrip(c)] together with the number of characters removed. *)
Fixpoint lstrip (c : ascii) (s : string) : nat * string :=
  match s with
  | String a s' =>
      if Ascii.eqb a c then let '(n, r) := lstrip c s' in (S n, r) else (0, s)
  | EmptyString => (0, s)
  end.

(** [sep.join(l)] *)
Fixpoint join (sep : string) (l : list string) : string :=
  match l with
  | [] => EmptyString
  | [x] => x
  | x :: rest => x ++ sep ++ join sep rest
  end.

End PyStr.

(** ** pathlib (POSIX flavour) *)

(** A parsed path: its root ([""], ["/"] or ["//"]) and its components. *)
Record Path := mkPath { root : string; parts : list string }.

#[global] Instance Path_eq_dec : EqDecision Path.
Proof. solve_decision. Defined.

#[global] Instance Path_countable : Countable Path.
Proof.
  refine (inj_countable' (fun p => (root p, parts p))
                         (fun rp => mkPath (fst rp) (snd rp)) _).
  intros [r ps]; reflexivity.
Defined.

Module pathlib.

(** [_PosixFlavour.splitroot] *)
Definition splitroot (part : string) : string * string :=
  match part with
  | String "/" _ =>
      let '(n, stripped) := PyStr.lstrip "/" part in
      if Nat.eqb n 2 then ("//", stripped) else ("/", stripped)
  | _ => ("", part)
  end.

Definition keep_part (x : string) : bool :=
  negb (String.eqb x "") && negb (String.eqb x ".").

(** [Path(s)]: empty components and ["."] are dropped. *)
Definition of_str (s : string) : Path :=
  let '(r, rel) := splitroot s in
  mkPath r (List.filter keep_part (PyStr.split "/" rel)).

(** [self / other]: an anchored right operand replaces the left one. *)
Definition truediv (self other : Path) : Path :=
  if String.eqb (root other) "" then mkPath (root self) (parts self ++ parts other)
  else other.

(** [str(p)] *)
Definition str (p : Path) : string :=
  if String.eqb (root p) "" then
    match parts p with
    | [] => "."
    | ps => PyStr.join "/" ps
    end
  else root p ++ PyStr.join "/" (parts p).

(** [p.name]: the final component, if any. *)
Definition name (p : Path) : string := List.last (parts p) "".

(** [p.suffix]: from the last dot of the name, unless that dot starts or
    ends the name. *)
Definition suffix (p : Path) : string :=
  let name := name p in
  match PyStr.rfind "." name with
  | Some i =>
      if Nat.ltb 0 i && Nat.ltb i (String.length name - 1) then PyStr.drop i name else ""
  | None => ""
  end.

End pathlib.

Infix "</>" := pathlib.truediv (at level 40, left associativity).

(** ** Exceptions, the file system and the effect monad *)

Abbreviation bytes := (list Byte.byte).

Inductive exn :=
| InvalidConfigurationError (msg : string)
| FileNotFoundError (p : Path)
| UnsupportedOperation.

Inductive result (A : Type) :=
| Ok (a : A)
| Raise (e : exn).
Arguments Ok {A} a.
Arguments Raise {A} e.

Inductive OpenMode := mode_rb | mode_w.

(** The system calls the resolver and its collaborators can issue. *)
Inductive Syscall :=
| SysStat (p : Path)
| SysOpen (p : Path) (mode : OpenMode)
| SysRead (p : Path)
| SysGitRevParse.

Definition read_only_call (c : Syscall) : bool :=
  match c with
  | SysOpen _ mode_w => false
  | _ => true
  end.

(** The disk maps absolute paths to the contents of regular, readable
    files; [git_toplevel] is what [git rev-parse --show-toplevel] answers in
    [cwd]; [trace] lists the calls made so far, oldest first. *)
Record State := mkState {
  fs : gmap Path bytes;
  cwd : Path;
  git_toplevel : option Path;
  trace : list Syscall
}.

Definition M (A : Type) : Type := State -> result A * State.

Definition ret {A} (a : A) : M A := fun s => (Ok a, s).
Definition raise {A} (e : exn) : M A := fun s => (Raise e, s).
Definition bind {A B} (m : M A) (k : A -> M B) : M B :=
  fun s => match m s with
           | (Ok a, s') => k a s'
           | (Raise e, s') => (Raise e, s')
           end.

Notation "x <- m ;; k" := (bind m (fun x => k))
  (at level 100, m at next level, right associativity).

Definition log (c : Syscall) (s : State) : State :=
  mkState (fs s) (cwd s) (git_toplevel s) (trace s ++ [c]).

(** A relative path is interpreted from the working directory. *)
Definition resolve (s : State) (p : Path) : Path := cwd s </> p.

(** [p.exists()] *)
Definition exists_ (p : Path) : M bool :=
  fun s => (Ok (bool_decide (is_Some (fs s !! resolve s p))), log (SysStat p) s).

(** An open file object. *)
Record FileObj := mkFileObj { fo_path : Path; fo_mode : OpenMode }.

(** [open(p, mode)]: ["rb"] needs the file, ["w"] creates or truncates it. *)
Definition open_ (p : Path) (mode : OpenMode) : M FileObj :=
  fun s =>
    let s' := log (SysOpen p mode) s in
    match mode with
    | mode_rb =>
        match fs s !! resolve s p with
        | Some _ => (Ok (mkFileObj (resolve s p) mode_rb), s')
        | None => (Raise (FileNotFoundError p), s')
        end
    | mode_w =>
        (Ok (mkFileObj (resolve s p) mode_w),
         mkState (<[resolve s p := []]> (fs s')) (cwd s') (git_toplevel s') (trace s'))
    end.

(** [f.read()] *)
Definition read (f : FileObj) : M bytes :=
  fun s =>
    let s' := log (SysRead (fo_path f)) s in
    match fo_mode f with
    | mode_rb => (Ok (default [] (fs s !! fo_path f)), s')
    | mode_w => (Raise UnsupportedOperation, s')
    end.

(** [git.find_git_project_root()], the external collaborator. *)
Definition find_git_project_root : M (option Path) :=
  fun s => (Ok (git_toplevel s), log SysGitRevParse s).

(** ** Collaborating modules that the resolver imports *)

(** [commitizen.defaults]: the settings table and the ordered list of
    default file names. *)
Class Defaults := {
  Settings : Type;
  DEFAULT_SETTINGS : Settings;
  config_files : list string
}.

(** A configuration handle: settings, originating path and the flag that
    records whether the tool section was absent. *)
Record Config `{Defaults} := mkConfig {
  settings : Settings;
  path : option Path;
  is_empty_config : bool
}.

(** The three format adapters ([TomlConfig(data=..., path=...)] and its
    siblings): they parse the bytes they are handed and either build a
    handle or raise. *)
Class Adapters `{Defaults} := {
  TomlConfig : bytes -> Path -> result Config;
  JsonConfig : bytes -> Path -> result Config;
  YAMLConfig : bytes -> Path -> result Config
}.

(** Modelled from the spec: the [BaseConfig] class ([base_config.py] is not
    among the sources). A handle is "created empty with defaults" and its
    originating path is "absent when using built-in defaults only". *)
Definition BaseConfig `{Defaults} : Config :=
  mkConfig _ DEFAULT_SETTINGS None false.

Definition lift {A} (r : result A) : M A := fun s => (r, s).

(** ** The resolver *)

Section Resolver.
Context `{Adapters}.

(** [_load_config_from_file(path)] *)
Definition _load_config_from_file (path : Path) : M Config :=
  f <- open_ path mode_rb ;;
  data <- read f ;;
  if PyStr.contains "toml" (pathlib.suffix path) then
    lift (TomlConfig data path)
  else if PyStr.contains "json" (pathlib.suffix path) then
    lift (JsonConfig data path)
  else if PyStr.contains "yaml" (pathlib.suffix path) then
    lift (YAMLConfig data path)
  else
    raise (InvalidConfigurationError
             "Config file should have a valid extension: toml, yaml or json").

(** The list [cfg_search_paths] built at the start of the default search. *)
Definition cfg_search_paths (git_project_root : option Path) : list Path :=
  [pathlib.of_str "."]
  ++ match git_project_root with
     | Some r => [r]
     | None => []
     end.

(** The generator [cfg_paths]: directories outside, file names inside. *)
Definition cfg_paths (search_paths : list Path) : list Path :=
  flat_map (fun path => map (fun filename => path </> pathlib.of_str filename)
                            config_files)
           search_paths.

(** The [for filename in cfg_paths] loop. *)
Fixpoint search_loop (candidates : list Path) : M (option Config) :=
  match candidates with
  | [] => ret None
  | filename :: rest =>
      found <- exists_ filename ;;
      if negb found then search_loop rest
      else
        _conf <- _load_config_from_file filename ;;
        if negb (is_empty_config _conf) then ret (Some _conf)
        else search_loop rest
  end.

(** [_find_config_from_defaults()] *)
Definition _find_config_from_defaults : M (option Config) :=
  git_project_root <- find_git_project_root ;;
  search_loop (cfg_paths (cfg_search_paths git_project_root)).

(** [read_cfg(cfg_path)]; a handle object is truthy, [None] is not. *)
Definition read_cfg (cfg_path : option Path) : M Config :=
  let conf := BaseConfig in
  _conf <- match cfg_path with
           | Some cfg_path =>
               found <- exists_ cfg_path ;;
               if negb found then
                 raise (InvalidConfigurationError
                          ("File " ++ pathlib.str cfg_path ++ " not exists."))
               else
                 _conf <- _load_config_from_file cfg_path ;;
                 if is_empty_config _conf then
                   raise (InvalidConfigurationError
                            ("File " ++ pathlib.str cfg_path
                             ++ " doesn't contain any configuration. "
                             ++ "Fill it or don't use --config-file option."))
                 else ret (Some _conf)
           | None => _find_config_from_defaults
           end ;;
  match _conf with
  | Some c => ret c
  | None => ret conf
  end.

End Resolver.

(** The exception of the loader's last branch. *)
Definition invalid_extension : exn :=
  InvalidConfigurationError
    "Config file should have a valid extension: toml, yaml or json".

(** ** Observations on a state *)

(** What the disk holds at [p], seen from the working directory. *)
Definition on_disk (s : State) (p : Path) : option bytes := fs s !! resolve s p.

Definition is_file (s : State) (p : Path) : bool := bool_decide (is_Some (on_disk s p)).

(** Two states that differ at most in their traces. *)
Definition same_disk (s s' : State) : Prop :=
  fs s' = fs s /\ cwd s' = cwd s /\ git_toplevel s' = git_toplevel s.

(** The calls made between [s] and [s'] are all read-only. *)
Definition only_reads (s s' : State) : Prop :=
  exists calls, trace s' = trace s ++ calls /\ forallb read_only_call calls = true.

(** A computation is read-only when, from every state, it changes neither
    the disk nor the environment and issues read-only calls only. *)
Definition read_only_comp {A} (m : M A) : Prop :=
  forall s, same_disk s (snd (m s)) /\ only_reads s (snd (m s)).

Section Observations.
Context `{Adapters}.

(** The outcome of loading [p] in state [s]. *)
Definition load_result (s : State) (p : Path) : result Config :=
  fst (_load_config_from_file p s).

(** The default search passes over [p]: the file is missing, or it loads
    and its section is empty. *)
Definition skips (s : State) (p : Path) : bool :=
  negb (is_file s p)
  || match load_result s p with
     | Ok c => is_empty_config c
     | Raise _ => false
     end.

(** The candidates of a default search started in [s]. *)
Definition candidates (s : State) : list Path :=
  cfg_paths (cfg_search_paths (git_toplevel s)).

End Observations.

(** The directory list as the specification words it: the git root is
    listed only when it differs from the working directory. *)
Definition spec_search_paths (working_dir : Path) (git_project_root : option Path)
  : list Path :=
  [pathlib.of_str "."]
  ++ match git_project_root with
     | Some r => if decide (r = working_dir) then [] else [r]
     | None => []
     end.

(** ** A small instance of the collaborators, to run the resolver *)

Module Demo.

(** Settings are a list of key/value pairs; the file names are the first
    two of the upstream list. *)
#[local] Instance defaults : Defaults := {|
  Settings := list (string * string);
  DEFAULT_SETTINGS := [("name", "cz_conventional_commits")];
  config_files := ["pyproject.toml"; ".cz.toml"]
|}.

Definition text (data : bytes) : string := string_of_list_byte data.

(** A toy format shared by the three adapters: no bytes, no section; a
    leading ["!"] is a syntax error; anything else is the tool's name. *)
Definition parse (format : string) (data : bytes) (p : Path) : result Config :=
  match data with
  | [] => Ok (mkConfig _ DEFAULT_SETTINGS (Some p) true)
  | Byte.x21 :: _ =>
      Raise (InvalidConfigurationError
               ("Failed to parse " ++ pathlib.str p ++ ": invalid " ++ format))
  | _ => Ok (mkConfig _ [("name", text data)] (Some p) false)
  end.

#[local] Instance adapters : Adapters := {|
  TomlConfig := parse "toml";
  JsonConfig := parse "json";
  YAMLConfig := parse "yaml"
|}.

Definition data_of (t : string) : bytes := list_byte_of_string t.

Definition repo : Path := pathlib.of_str "/repo".

(** A state with the given files, working directory and git answer. *)
Definition disk (files : list (string * string)) (wd : Path) (git : option Path)
  : State :=
  mkState (list_to_map (map (fun '(n, t) => (pathlib.of_str n, data_of t)) files))
          wd git [].

(** Nothing on disk, outside any repository. *)
Definition empty_disk : State := disk [] repo None.

(** An empty manifest next to a populated dotfile. *)
Definition manifest_then_dotfile : State :=
  disk [("/repo/pyproject.toml", ""); ("/repo/.cz.toml", "cz_jira")] repo None.

(** A malformed manifest next to a populated dotfile. *)
Definition broken_manifest : State :=
  disk [("/repo/pyproject.toml", "!!"); ("/repo/.cz.toml", "cz_jira")] repo None.

(** The working directory is the git root. *)
Definition at_git_root : State := disk [] repo (Some repo).

Definition odd_names : State :=
  disk [("/repo/config.json.bak", "cz_jira"); ("/repo/jsonfile.txt", "cz_jira");
        ("/repo/config.json5", "cz_jira"); ("/repo/file.toml", "");
        ("/repo/file.txt", "")] repo None.

(** A sub-directory of a repository whose root holds the configuration. *)
Definition in_subdirectory : State :=
  disk [("/repo/sub/pyproject.toml", ""); ("/repo/.cz.toml", "cz_jira")]
       (pathlib.of_str "/repo/sub") (Some repo).

Definition pyproject : Path := pathlib.of_str "pyproject.toml".
Definition cz_toml : Path := pathlib.of_str ".cz.toml".

(** The handles the toy adapters build. *)
Definition jira (p : Path) : Config := mkConfig _ [("name", "cz_jira")] (Some p) false.
Definition blank (p : Path) : Config := mkConfig _ DEFAULT_SETTINGS (Some p) true.

(** A handle of the toy adapters for a given tool name. *)
Definition handle (tool : string) (p : Path) : Config :=
  mkConfig _ [("name", tool)] (Some p) false.

(** A sub-directory with its own dotfile, inside a configured repository. *)
Definition both_configured : State :=
  disk [("/repo/sub/.cz.toml", "cz_local"); ("/repo/pyproject.toml", "cz_root")]
       (pathlib.of_str "/repo/sub") (Some repo).

(** Files whose names carry no extension. *)
Definition bare_names : State :=
  disk [("/repo/.toml", "cz_jira"); ("/repo/toml", "cz_jira")] repo None.

End Demo.

(** The paths tested for existence among a list of calls, in order. *)
Fixpoint stat_paths (calls : list Syscall) : list Path :=
  match calls with
  | [] => []
  | SysStat p :: rest => p :: stat_paths rest
  | _ :: rest => stat_paths rest
  end.

(** The messages of the two errors [read_cfg] raises itself. *)
Definition not_exists_error (cfg_path : Path) : exn :=
  InvalidConfigurationError ("File " ++ pathlib.str cfg_path ++ " not exists.").

Definition empty_config_error (cfg_path : Path) : exn :=
  InvalidConfigurationError
    ("File " ++ pathlib.str cfg_path ++ " doesn't contain any configuration. "
     ++ "Fill it or don't use --config-file option.").

(** * Properties *)

(** ** Strings and paths *)

Lemma prefix_spec (a s : string) :
  String.prefix a s = true <-> exists post, s = (a ++ post)%string.
Proof.
  revert s; induction a as [|c a IH]; intros s; destruct s as [|d s]; simpl.
  - split; [intros _; exists EmptyString; reflexivity | reflexivity].
  - split; [intros _; exists (String d s); reflexivity | reflexivity].
  - split; [discriminate | intros [post Hp]; discriminate].
  - destruct (Ascii.ascii_dec c d) as [->|Hne].
    + rewrite IH. split; intros [post Hp]; exists post.
      * subst s. reflexivity.
      * change (String d s = String d (a ++ post)%string) in Hp. congruence.
    + split; [discriminate |].
      intros [post Hp]. change (String d s = String c (a ++ post)%string) in Hp.
      congruence.
Qed.

(** [PyStr.contains] is Python's substring test. *)
Lemma contains_spec (sub s : string) :
  PyStr.contains sub s = true
  <-> exists pre post, s = (pre ++ sub ++ post)%string.
Proof.
  induction s as [|c s IH].
  - change (PyStr.contains sub "") with (String.prefix sub "" || false).
    rewrite orb_false_r, prefix_spec. split.
    + intros [post Hp]. exists EmptyString, post. exact Hp.
    + intros [pre [post Hp]]. destruct pre; [|discriminate].
      exists post. exact Hp.
  - change (PyStr.contains sub (String c s))
      with (String.prefix sub (String c s) || PyStr.contains sub s).
    rewrite orb_true_iff, prefix_spec, IH. split.
    + intros [[post Hp] | [pre [post Hp]]].
      * exists EmptyString, post. exact Hp.
      * exists (String c pre), post. rewrite Hp. reflexivity.
    + intros [pre [post Hp]]. destruct pre as [|d pre].
      * left. exists post. exact Hp.
      * right. exists pre, post.
        change (String c s = String d (pre ++ sub ++ post)%string) in Hp. congruence.
Qed.

Example suffix_cz_toml : pathlib.suffix (pathlib.of_str ".cz.toml") = ".toml".
Proof. reflexivity. Qed.

Example suffix_dotfile : pathlib.suffix (pathlib.of_str ".bashrc") = "".
Proof. reflexivity. Qed.

Example suffix_trailing_dot : pathlib.suffix (pathlib.of_str "notes.") = "".
Proof. reflexivity. Qed.

Example join_dot :
  pathlib.of_str "." </> pathlib.of_str "pyproject.toml" = pathlib.of_str "pyproject.toml".
Proof. reflexivity. Qed.

Example join_abs :
  pathlib.str (pathlib.of_str "/repo/" </> pathlib.of_str "./cz.json") = "/repo/cz.json".
Proof. reflexivity. Qed.

Example str_dot : pathlib.str (pathlib.of_str ".") = ".".
Proof. reflexivity. Qed.

(** ** States that differ in their traces only *)

Lemma same_disk_refl s : same_disk s s.
Proof. repeat split. Qed.

Lemma same_disk_trans s1 s2 s3 : same_disk s1 s2 -> same_disk s2 s3 -> same_disk s1 s3.
Proof. intros (?&?&?) (?&?&?). repeat split; congruence. Qed.

Lemma same_disk_log c s : same_disk s (log c s).
Proof. repeat split. Qed.

Lemma only_reads_refl s : only_reads s s.
Proof. exists []. split; [symmetry; apply app_nil_r | reflexivity]. Qed.

Lemma only_reads_trans s1 s2 s3 : only_reads s1 s2 -> only_reads s2 s3 -> only_reads s1 s3.
Proof.
  intros (c1 & H1 & R1) (c2 & H2 & R2). exists (c1 ++ c2). split.
  - rewrite H2, H1. symmetry. apply app_assoc.
  - rewrite forallb_app, R1, R2. reflexivity.
Qed.

Lemma only_reads_log c s : read_only_call c = true -> only_reads s (log c s).
Proof. intros Hc. exists [c]. split; [reflexivity | simpl; rewrite Hc; reflexivity]. Qed.

Lemma on_disk_same s s' p : same_disk s s' -> on_disk s' p = on_disk s p.
Proof. intros (Hfs & Hcwd & _). unfold on_disk, resolve. rewrite Hfs, Hcwd. reflexivity. Qed.

Lemma is_file_same s s' p : same_disk s s' -> is_file s' p = is_file s p.
Proof. intros Hs. unfold is_file. rewrite (on_disk_same _ _ _ Hs). reflexivity. Qed.

Lemma is_file_true s p : is_file s p = true <-> exists data, on_disk s p = Some data.
Proof. unfold is_file. rewrite bool_decide_eq_true. reflexivity. Qed.

Lemma is_file_false s p : is_file s p = false <-> on_disk s p = None.
Proof.
  unfold is_file. rewrite bool_decide_eq_false. rewrite <- eq_None_not_Some. reflexivity.
Qed.

(** ** Computations that leave the disk alone *)

Lemma ro_ret {A} (a : A) : read_only_comp (ret a).
Proof. intros s. split; [apply same_disk_refl | apply only_reads_refl]. Qed.

Lemma ro_raise {A} e : read_only_comp (@raise A e).
Proof. intros s. split; [apply same_disk_refl | apply only_reads_refl]. Qed.

Lemma ro_lift {A} (r : result A) : read_only_comp (lift r).
Proof. intros s. split; [apply same_disk_refl | apply only_reads_refl]. Qed.

Lemma ro_bind {A B} (m : M A) (k : A -> M B) :
  read_only_comp m -> (forall a, read_only_comp (k a)) -> read_only_comp (bind m k).
Proof.
  intros Hm Hk s. unfold bind. specialize (Hm s).
  destruct (m s) as [[a|e] s1]; simpl in Hm; [|exact Hm].
  destruct Hm as [D1 R1]. destruct (Hk a s1) as [D2 R2]. split.
  - exact (same_disk_trans _ _ _ D1 D2).
  - exact (only_reads_trans _ _ _ R1 R2).
Qed.

Lemma ro_exists p : read_only_comp (exists_ p).
Proof. intros s. split; [apply same_disk_log | apply only_reads_log; reflexivity]. Qed.

Lemma ro_open_rb p : read_only_comp (open_ p mode_rb).
Proof.
  intros s. unfold open_. destruct (fs s !! resolve s p); simpl;
    (split; [apply same_disk_log | apply only_reads_log; reflexivity]).
Qed.

Lemma ro_read f : read_only_comp (read f).
Proof.
  intros s. unfold read. destruct (fo_mode f); simpl;
    (split; [apply same_disk_log | apply only_reads_log; reflexivity]).
Qed.

Lemma ro_git : read_only_comp find_git_project_root.
Proof. intros s. split; [apply same_disk_log | apply only_reads_log; reflexivity]. Qed.

(** Opening for writing is not read-only: the vocabulary of calls does
    contain one that changes the disk. *)
Example open_w_changes_disk :
  on_disk (snd (open_ (pathlib.of_str "cz.toml") mode_w Demo.empty_disk))
          (pathlib.of_str "cz.toml") = Some []
  /\ on_disk Demo.empty_disk (pathlib.of_str "cz.toml") = None.
Proof. split; reflexivity. Qed.

(** ** The loader and the search loop, step by step *)

Section ResolverFacts.
Context `{Adapters}.

(** The loader's run on an existing file: both calls succeed, the bytes
    read are the file's, and the suffix picks the adapter. *)
Lemma load_existing s p data :
  on_disk s p = Some data ->
  _load_config_from_file p s =
    ((if PyStr.contains "toml" (pathlib.suffix p) then TomlConfig data p
      else if PyStr.contains "json" (pathlib.suffix p) then JsonConfig data p
      else if PyStr.contains "yaml" (pathlib.suffix p) then YAMLConfig data p
      else Raise (InvalidConfigurationError
                    "Config file should have a valid extension: toml, yaml or json")),
     log (SysRead (resolve s p)) (log (SysOpen p mode_rb) s)).
Proof.
  unfold on_disk. intros Hd.
  unfold _load_config_from_file, bind, open_, read. rewrite Hd.
  cbn [fo_path fo_mode log fs]. rewrite Hd. cbn [default].
  destruct (PyStr.contains "toml" (pathlib.suffix p)); [reflexivity|].
  destruct (PyStr.contains "json" (pathlib.suffix p)); [reflexivity|].
  destruct (PyStr.contains "yaml" (pathlib.suffix p)); reflexivity.
Qed.

Lemma load_missing s p :
  on_disk s p = None ->
  _load_config_from_file p s
  = (Raise (FileNotFoundError p), log (SysOpen p mode_rb) s).
Proof.
  unfold on_disk. intros Hd.
  unfold _load_config_from_file, bind, open_. rewrite Hd. reflexivity.
Qed.

Lemma load_result_same s s' p : same_disk s s' -> load_result s' p = load_result s p.
Proof.
  intros Hs. unfold load_result. pose proof (on_disk_same _ _ p Hs) as Hd.
  destruct (on_disk s p) as [data|] eqn:E.
  - rewrite (load_existing s' p data Hd), (load_existing s p data E). reflexivity.
  - rewrite (load_missing s' p Hd), (load_missing s p E). reflexivity.
Qed.

Lemma skips_same s s' p : same_disk s s' -> skips s' p = skips s p.
Proof.
  intros Hs. unfold skips.
  rewrite (is_file_same _ _ _ Hs), (load_result_same _ _ _ Hs). reflexivity.
Qed.

Lemma forallb_skips_same s s' l :
  same_disk s s' -> forallb (skips s') l = forallb (skips s) l.
Proof.
  intros Hs. induction l as [|p l IH]; simpl; [reflexivity|].
  rewrite (skips_same _ _ _ Hs), IH. reflexivity.
Qed.

(** What [skips] means. *)
Lemma skips_spec s p :
  skips s p = true
  <-> on_disk s p = None
      \/ exists conf, load_result s p = Ok conf /\ is_empty_config conf = true.
Proof.
  unfold skips. rewrite orb_true_iff, negb_true_iff, is_file_false. split.
  - intros [Hm | Hl]; [left; exact Hm | right].
    destruct (load_result s p) as [c|e]; [exists c; split; [reflexivity | exact Hl] | discriminate].
  - intros [Hm | [conf [Hl He]]]; [left; exact Hm | right]. rewrite Hl. exact He.
Qed.

Lemma ro_load p : read_only_comp (_load_config_from_file p).
Proof.
  unfold _load_config_from_file.
  apply ro_bind; [apply ro_open_rb | intros f].
  apply ro_bind; [apply ro_read | intros data].
  destruct (PyStr.contains "toml" (pathlib.suffix p)); [apply ro_lift|].
  destruct (PyStr.contains "json" (pathlib.suffix p)); [apply ro_lift|].
  destruct (PyStr.contains "yaml" (pathlib.suffix p)); [apply ro_lift | apply ro_raise].
Qed.

(** One turn of the loop, unfolded. *)
Lemma search_loop_cons p rest s :
  search_loop (p :: rest) s =
    if is_file s p then
      match _load_config_from_file p (log (SysStat p) s) with
      | (Ok c, s') => if is_empty_config c then search_loop rest s' else (Ok (Some c), s')
      | (Raise e, s') => (Raise e, s')
      end
    else search_loop rest (log (SysStat p) s).
Proof.
  simpl. unfold bind at 1, exists_. fold (on_disk s p). fold (is_file s p).
  destruct (is_file s p); simpl; [|reflexivity].
  unfold bind at 1.
  destruct (_load_config_from_file p (log (SysStat p) s)) as [[c|e] s']; [|reflexivity].
  destruct (is_empty_config c); reflexivity.
Qed.

(** A skipped candidate costs read-only calls and nothing else. *)
Lemma search_loop_skip p s :
  skips s p = true ->
  exists s1, same_disk s s1 /\ forall rest, search_loop (p :: rest) s = search_loop rest s1.
Proof.
  intros Hk. unfold skips in Hk.
  destruct (is_file s p) eqn:Hf; simpl in Hk.
  - pose proof (same_disk_log (SysStat p) s) as D0.
    rewrite <- (load_result_same _ _ p D0) in Hk. unfold load_result in Hk.
    destruct (ro_load p (log (SysStat p) s)) as [D1 _].
    destruct (_load_config_from_file p (log (SysStat p) s)) as [[c|e] s'] eqn:El;
      simpl in Hk, D1; [|discriminate].
    exists s'. split; [exact (same_disk_trans _ _ _ D0 D1)|].
    intros rest. rewrite search_loop_cons, Hf, El, Hk. reflexivity.
  - exists (log (SysStat p) s). split; [apply same_disk_log|].
    intros rest. rewrite search_loop_cons, Hf. reflexivity.
Qed.

(** A run of skipped candidates. *)
Lemma search_loop_skip_all pre s :
  forallb (skips s) pre = true ->
  exists s1, same_disk s s1 /\ forall rest, search_loop (pre ++ rest) s = search_loop rest s1.
Proof.
  revert s. induction pre as [|p pre IH]; intros s Hall.
  - exists s. split; [apply same_disk_refl | reflexivity].
  - simpl in Hall. apply andb_true_iff in Hall as [Hp Hpre].
    destruct (search_loop_skip p s Hp) as (s1 & D1 & E1).
    rewrite <- (forallb_skips_same _ _ pre D1) in Hpre.
    destruct (IH s1 Hpre) as (s2 & D2 & E2).
    exists s2. split; [exact (same_disk_trans _ _ _ D1 D2)|].
    intros rest. rewrite <- app_comm_cons, E1. apply E2.
Qed.

(** The loop stops at a populated candidate. *)
Lemma search_loop_hit c post conf s :
  is_file s c = true -> load_result s c = Ok conf -> is_empty_config conf = false ->
  fst (search_loop (c :: post) s) = Ok (Some conf).
Proof.
  intros Hf Hl He.
  rewrite <- (load_result_same _ _ c (same_disk_log (SysStat c) s)) in Hl.
  unfold load_result in Hl. rewrite search_loop_cons, Hf.
  destruct (_load_config_from_file c (log (SysStat c) s)) as [[c'|e] s']; simpl in Hl;
    [|discriminate].
  injection Hl as ->. rewrite He. reflexivity.
Qed.

(** The loop stops at a candidate that fails to load, whatever follows. *)
Lemma search_loop_raise c post e s :
  is_file s c = true -> load_result s c = Raise e ->
  fst (search_loop (c :: post) s) = Raise e
  /\ search_loop (c :: post) s = search_loop [c] s.
Proof.
  intros Hf Hl.
  rewrite <- (load_result_same _ _ c (same_disk_log (SysStat c) s)) in Hl.
  unfold load_result in Hl. rewrite !search_loop_cons, Hf.
  destruct (_load_config_from_file c (log (SysStat c) s)) as [[c'|e'] s']; simpl in Hl;
    [discriminate|].
  injection Hl as ->. split; reflexivity.
Qed.

Lemma ro_search_loop l : read_only_comp (search_loop l).
Proof.
  induction l as [|p l IH]; simpl; [apply ro_ret|].
  apply ro_bind; [apply ro_exists | intros found].
  destruct found; simpl; [|exact IH].
  apply ro_bind; [apply ro_load | intros c].
  destruct (is_empty_config c); simpl; [exact IH | apply ro_ret].
Qed.

Lemma find_unfold s :
  _find_config_from_defaults s = search_loop (candidates s) (log SysGitRevParse s).
Proof. reflexivity. Qed.

Lemma read_cfg_default s :
  read_cfg None s =
    match _find_config_from_defaults s with
    | (Ok (Some c), s') => (Ok c, s')
    | (Ok None, s') => (Ok BaseConfig, s')
    | (Raise e, s') => (Raise e, s')
    end.
Proof.
  unfold read_cfg, bind at 1.
  destruct (_find_config_from_defaults s) as [[[c|]|e] s']; reflexivity.
Qed.

Lemma ro_find : read_only_comp _find_config_from_defaults.
Proof.
  unfold _find_config_from_defaults.
  apply ro_bind; [apply ro_git | intros g; apply ro_search_loop].
Qed.

Lemma load_ok_is_file s p conf : load_result s p = Ok conf -> is_file s p = true.
Proof.
  intros Hl. destruct (is_file s p) eqn:Hf; [reflexivity|].
  apply is_file_false in Hf. unfold load_result in Hl.
  rewrite (load_missing s p Hf) in Hl. discriminate.
Qed.

(** The candidates of one directory precede those of the directories
    listed after it. *)
Lemma cfg_paths_cons d dirs :
  cfg_paths (d :: dirs)
  = map (fun filename => d </> pathlib.of_str filename) config_files ++ cfg_paths dirs.
Proof. reflexivity. Qed.

Lemma cfg_paths_length dirs :
  length (cfg_paths dirs) = length dirs * length config_files.
Proof.
  induction dirs as [|d dirs IH]; [reflexivity|].
  rewrite cfg_paths_cons, length_app, length_map, IH. reflexivity.
Qed.

(** Position of the candidate made of the [i]-th directory and the
    [j]-th file name. *)
Lemma cfg_paths_lookup dirs i j d f :
  dirs !! i = Some d -> config_files !! j = Some f ->
  cfg_paths dirs !! (i * length config_files + j) = Some (d </> pathlib.of_str f).
Proof.
  revert i. induction dirs as [|d0 dirs IH]; intros i Hd Hf; [discriminate|].
  rewrite cfg_paths_cons. destruct i as [|i].
  - injection Hd as ->. change (0 * length config_files + j) with j. rewrite lookup_app_l.
    + change (map ?g config_files) with (g <$> config_files).
      rewrite list_lookup_fmap, Hf. reflexivity.
    + rewrite length_map. apply (lookup_lt_Some _ _ _ Hf).
  - rewrite lookup_app_r; rewrite length_map; [|simpl; lia].
    replace (S i * length config_files + j - length config_files)
      with (i * length config_files + j) by (simpl; lia).
    apply IH; assumption.
Qed.

End ResolverFacts.

(** ** The resolver's contract *)

Section Contract.
Context `{Adapters}.

(** C1. Default search walks the candidates directory by directory and,
    inside a directory, file name by file name; candidates that are
    missing, or that load with an empty section, are passed over without
    an error, and the first candidate that loads with a non-empty section
    is what the search and [read_cfg] return. *)
Theorem default_search_first_populated s pre c post conf :
  candidates s = pre ++ c :: post ->
  forallb (skips s) pre = true ->
  is_file s c = true ->
  load_result s c = Ok conf ->
  is_empty_config conf = false ->
  (forall d dirs,
      cfg_paths (d :: dirs)
      = map (fun filename => d </> pathlib.of_str filename) config_files
        ++ cfg_paths dirs)
  /\ fst (_find_config_from_defaults s) = Ok (Some conf)
  /\ fst (read_cfg None s) = Ok conf.
Proof.
  intros Hc Hpre Hf Hl He.
  assert (Hfind : fst (_find_config_from_defaults s) = Ok (Some conf)).
  { rewrite find_unfold, Hc.
    pose proof (same_disk_log SysGitRevParse s) as D0.
    rewrite <- (forallb_skips_same _ _ pre D0) in Hpre.
    destruct (search_loop_skip_all pre _ Hpre) as (s1 & D1 & E1). rewrite E1.
    pose proof (same_disk_trans _ _ _ D0 D1) as D.
    apply search_loop_hit.
    - rewrite (is_file_same _ _ _ D). exact Hf.
    - rewrite (load_result_same _ _ _ D). exact Hl.
    - exact He. }
  split; [intros d dirs; apply cfg_paths_cons|]. split; [exact Hfind|].
  rewrite read_cfg_default.
  destruct (_find_config_from_defaults s) as [[[c'|]|e] s']; simpl in Hfind;
    try discriminate.
  injection Hfind as ->. reflexivity.
Qed.

(** C5. With an explicit path that does not exist, [read_cfg] raises
    [InvalidConfigurationError] with the message "File <path> not exists."
    and the only call made is the existence test: nothing is opened or
    parsed. *)
Theorem explicit_path_missing s p :
  is_file s p = false ->
  read_cfg (Some p) s
  = (Raise (InvalidConfigurationError ("File " ++ pathlib.str p ++ " not exists.")),
     log (SysStat p) s).
Proof.
  intros Hf. unfold read_cfg, bind, exists_.
  fold (on_disk s p). fold (is_file s p). rewrite Hf. reflexivity.
Qed.

(** C6. With an explicit path that exists and loads with an empty section,
    [read_cfg] raises [InvalidConfigurationError]; the message names the
    file and tells the user to fill it or to drop --config-file. *)
Theorem explicit_path_empty_section s p conf :
  is_file s p = true ->
  load_result s p = Ok conf ->
  is_empty_config conf = true ->
  fst (read_cfg (Some p) s)
  = Raise (InvalidConfigurationError
             ("File " ++ pathlib.str p ++ " doesn't contain any configuration. "
              ++ "Fill it or don't use --config-file option.")).
Proof.
  intros Hf Hl He.
  rewrite <- (load_result_same _ _ p (same_disk_log (SysStat p) s)) in Hl.
  unfold load_result in Hl.
  unfold read_cfg, bind, exists_. fold (on_disk s p). fold (is_file s p).
  rewrite Hf. cbn [negb].
  destruct (_load_config_from_file p (log (SysStat p) s)) as [[c|e] s']; simpl in Hl;
    [|discriminate].
  injection Hl as ->. rewrite He. reflexivity.
Qed.

(** C7. When every candidate of the default search is missing or loads
    with an empty section, the search finds nothing and [read_cfg]
    succeeds with the defaults-only handle: its settings are
    [DEFAULT_SETTINGS] and it has no originating path. *)
Theorem default_search_falls_back_to_defaults s :
  forallb (skips s) (candidates s) = true ->
  fst (_find_config_from_defaults s) = Ok None
  /\ exists conf,
       fst (read_cfg None s) = Ok conf
       /\ settings conf = DEFAULT_SETTINGS
       /\ path conf = None.
Proof.
  intros Hall.
  assert (Hfind : fst (_find_config_from_defaults s) = Ok None).
  { rewrite find_unfold.
    rewrite <- (forallb_skips_same _ _ _ (same_disk_log SysGitRevParse s)) in Hall.
    destruct (search_loop_skip_all _ _ Hall) as (s1 & _ & E1).
    specialize (E1 []). rewrite app_nil_r in E1. rewrite E1. reflexivity. }
  split; [exact Hfind|]. exists BaseConfig.
  rewrite read_cfg_default.
  destruct (_find_config_from_defaults s) as [[[c'|]|e] s']; simpl in Hfind;
    try discriminate.
  repeat split.
Qed.

(** C8. When an earlier candidate exists but loads with an empty section
    and a later candidate loads with a real section (everything before it
    being missing or empty), [read_cfg] returns the later candidate's
    handle, hence its settings, and not the defaults-only handle. *)
Theorem empty_candidate_then_populated s pre e mid l post empty conf :
  candidates s = pre ++ e :: mid ++ l :: post ->
  forallb (skips s) pre = true ->
  is_file s e = true ->
  load_result s e = Ok empty ->
  is_empty_config empty = true ->
  forallb (skips s) mid = true ->
  is_file s l = true ->
  load_result s l = Ok conf ->
  is_empty_config conf = false ->
  fst (read_cfg None s) = Ok conf
  /\ fst (_find_config_from_defaults s) <> Ok None.
Proof.
  intros Hc Hpre Hfe Hle Hee Hmid Hfl Hll Hel.
  assert (Hskip : forallb (skips s) (pre ++ e :: mid) = true).
  { rewrite forallb_app, Hpre. simpl. rewrite Hmid, andb_true_r.
    apply skips_spec. right. exists empty. split; assumption. }
  assert (Hfind : fst (_find_config_from_defaults s) = Ok (Some conf)).
  { rewrite find_unfold, Hc.
    replace (pre ++ e :: mid ++ l :: post) with ((pre ++ e :: mid) ++ l :: post)
      by (rewrite <- app_assoc; reflexivity).
    pose proof (same_disk_log SysGitRevParse s) as D0.
    rewrite <- (forallb_skips_same _ _ _ D0) in Hskip.
    destruct (search_loop_skip_all _ _ Hskip) as (s1 & D1 & E1). rewrite E1.
    pose proof (same_disk_trans _ _ _ D0 D1) as D.
    apply search_loop_hit.
    - rewrite (is_file_same _ _ _ D). exact Hfl.
    - rewrite (load_result_same _ _ _ D). exact Hll.
    - exact Hel. }
  split; [|rewrite Hfind; discriminate].
  rewrite read_cfg_default.
  destruct (_find_config_from_defaults s) as [[[c'|]|x] s']; simpl in Hfind;
    try discriminate.
  injection Hfind as ->. reflexivity.
Qed.

(** C9. A candidate that exists but fails to load is not passed over: the
    exception leaves the search and [read_cfg] at once, and the whole run
    is the run of the loop over the candidates up to that one, so no
    later candidate is probed. *)
Theorem default_search_propagates_load_error s pre c post e :
  candidates s = pre ++ c :: post ->
  forallb (skips s) pre = true ->
  is_file s c = true ->
  load_result s c = Raise e ->
  fst (_find_config_from_defaults s) = Raise e
  /\ fst (read_cfg None s) = Raise e
  /\ _find_config_from_defaults s = search_loop (pre ++ [c]) (log SysGitRevParse s).
Proof.
  intros Hc Hpre Hf Hl.
  pose proof (same_disk_log SysGitRevParse s) as D0.
  rewrite <- (forallb_skips_same _ _ pre D0) in Hpre.
  destruct (search_loop_skip_all pre _ Hpre) as (s1 & D1 & E1).
  pose proof (same_disk_trans _ _ _ D0 D1) as D.
  rewrite <- (is_file_same _ _ _ D) in Hf.
  rewrite <- (load_result_same _ _ _ D) in Hl.
  destruct (search_loop_raise c post e s1 Hf Hl) as [R1 R2].
  assert (Hfind : fst (_find_config_from_defaults s) = Raise e).
  { rewrite find_unfold, Hc, E1. exact R1. }
  split; [exact Hfind|]. split.
  - rewrite read_cfg_default.
    destruct (_find_config_from_defaults s) as [[[c'|]|x] s']; simpl in Hfind;
      try discriminate.
    injection Hfind as ->. reflexivity.
  - rewrite find_unfold, Hc, !E1. exact R2.
Qed.

(** C10. [read_cfg] is read-only in both modes and whether it returns or
    raises: the files, the working directory and the repository are as
    before, and every call it adds to the trace is a read-only one. *)
Theorem read_cfg_read_only cfg_path s :
  fs (snd (read_cfg cfg_path s)) = fs s
  /\ cwd (snd (read_cfg cfg_path s)) = cwd s
  /\ git_toplevel (snd (read_cfg cfg_path s)) = git_toplevel s
  /\ exists calls,
       trace (snd (read_cfg cfg_path s)) = trace s ++ calls
       /\ forallb read_only_call calls = true.
Proof.
  assert (Hro : read_only_comp (read_cfg cfg_path)).
  { unfold read_cfg. apply ro_bind.
    - destruct cfg_path as [p|]; [|apply ro_find].
      apply ro_bind; [apply ro_exists | intros found].
      destruct found; simpl; [|apply ro_raise].
      apply ro_bind; [apply ro_load | intros c].
      destruct (is_empty_config c); [apply ro_raise | apply ro_ret].
    - intros [c|]; apply ro_ret. }
  destruct (Hro s) as [(Hfs & Hcwd & Hgit) Hreads].
  repeat split; assumption.
Qed.

(** C3. On an existing file the loader picks the adapter by testing, in
    this order, whether "toml", "json" or "yaml" occurs in the path's
    suffix; a suffix such as ".tomlx" therefore selects the TOML adapter.
    When none occurs it raises [InvalidConfigurationError] naming the
    valid extensions, whatever bytes the file holds. *)
Theorem loader_selects_by_suffix_substring s p data :
  on_disk s p = Some data ->
  load_result s p
  = (if PyStr.contains "toml" (pathlib.suffix p) then TomlConfig data p
     else if PyStr.contains "json" (pathlib.suffix p) then JsonConfig data p
     else if PyStr.contains "yaml" (pathlib.suffix p) then YAMLConfig data p
     else Raise (InvalidConfigurationError
                   "Config file should have a valid extension: toml, yaml or json"))
  /\ (PyStr.contains "toml" (pathlib.suffix p) = false ->
      PyStr.contains "json" (pathlib.suffix p) = false ->
      PyStr.contains "yaml" (pathlib.suffix p) = false ->
      load_result s p
      = Raise (InvalidConfigurationError
                 "Config file should have a valid extension: toml, yaml or json"))
  /\ (pathlib.suffix (pathlib.of_str "cz.tomlx") <> ".toml"
      /\ PyStr.contains "toml" (pathlib.suffix (pathlib.of_str "cz.tomlx")) = true).
Proof.
  intros Hd. unfold load_result. rewrite (load_existing s p data Hd). simpl.
  split; [reflexivity|]. split.
  - intros -> -> ->. reflexivity.
  - split; [discriminate | reflexivity].
Qed.

End Contract.

Section Amendments.
Context `{Adapters}.

(** C2 (amended). The directory list of the default search is the working
    directory, written [Path(".")], followed by the git project root
    whenever the collaborator reports one; no comparison with the working
    directory is made, so a root equal to it is listed as well. *)
Theorem search_directories_cwd_then_git_root s :
  cfg_search_paths None = [pathlib.of_str "."]
  /\ (forall r, cfg_search_paths (Some r) = [pathlib.of_str "."; r])
  /\ cfg_search_paths (Some (cwd s)) = [pathlib.of_str "."; cwd s]
  /\ _find_config_from_defaults s
     = search_loop (cfg_paths (cfg_search_paths (git_toplevel s)))
                   (log SysGitRevParse s).
Proof. repeat split. Qed.

(** C4 (amended). The loader looks at the last extension only: an existing
    file named "config.json.bak" has suffix ".bak" and is rejected with
    the invalid-extension error, as is "jsonfile.txt"; the looseness of
    the substring test shows inside the suffix, e.g. "config.json5" is
    handed to the JSON adapter. *)
Theorem json_substring_is_tested_on_last_extension s p data :
  on_disk s p = Some data ->
  (pathlib.name p = "config.json.bak" \/ pathlib.name p = "jsonfile.txt" ->
   load_result s p = Raise invalid_extension)
  /\ (pathlib.name p = "config.json5" -> load_result s p = JsonConfig data p).
Proof.
  intros Hd. unfold load_result. rewrite (load_existing s p data Hd).
  unfold pathlib.suffix. cbn [fst]. split.
  - intros [-> | ->]; reflexivity.
  - intros ->. reflexivity.
Qed.

End Amendments.

(** ** Further properties of the resolver *)

Section Outcomes.
Context `{Adapters}.

Lemma same_disk_sym s s' : same_disk s s' -> same_disk s' s.
Proof. intros (?&?&?). repeat split; congruence. Qed.

Lemma stat_paths_app a b : stat_paths (a ++ b) = stat_paths a ++ stat_paths b.
Proof.
  induction a as [|c a IH]; [reflexivity|].
  destruct c; simpl; rewrite IH; reflexivity.
Qed.

(** The loader's calls: one [open], and one [read] when the file is there. *)
Lemma load_calls p s :
  exists calls,
    trace (snd (_load_config_from_file p s)) = trace s ++ calls
    /\ stat_paths calls = []
    /\ length calls <= 2
    /\ calls `prefix_of` [SysOpen p mode_rb; SysRead (resolve s p)].
Proof.
  destruct (on_disk s p) as [data|] eqn:E.
  - rewrite (load_existing s p data E).
    exists [SysOpen p mode_rb; SysRead (resolve s p)]. cbn [snd log trace].
    rewrite <- app_assoc. repeat split; simpl; [lia|]. exists []. reflexivity.
  - rewrite (load_missing s p E).
    exists [SysOpen p mode_rb]. cbn [snd log trace].
    repeat split; simpl; [lia|]. exists [SysRead (resolve s p)]. reflexivity.
Qed.

(** [read_cfg] with an explicit path, unfolded. *)
Lemma read_cfg_explicit p s :
  read_cfg (Some p) s =
    if is_file s p then
      match _load_config_from_file p (log (SysStat p) s) with
      | (Ok c, s') =>
          if is_empty_config c then (Raise (empty_config_error p), s') else (Ok c, s')
      | (Raise e, s') => (Raise e, s')
      end
    else (Raise (not_exists_error p), log (SysStat p) s).
Proof.
  unfold read_cfg, bind, exists_. fold (on_disk s p). fold (is_file s p).
  destruct (is_file s p); cbn [negb]; [|reflexivity].
  destruct (_load_config_from_file p (log (SysStat p) s)) as [[c|e] s']; [|reflexivity].
  destruct (is_empty_config c); reflexivity.
Qed.

(** The outcome of the loop depends on the disk only, not on the trace. *)
Lemma search_loop_same l :
  forall s s', same_disk s s' -> fst (search_loop l s') = fst (search_loop l s).
Proof.
  induction l as [|p l IH]; intros s s' Hs; [reflexivity|].
  rewrite !search_loop_cons, (is_file_same _ _ _ Hs).
  destruct (is_file s p).
  - assert (Ht : same_disk (log (SysStat p) s) (log (SysStat p) s')).
    { apply (same_disk_trans _ s); [apply same_disk_sym, same_disk_log|].
      apply (same_disk_trans _ s'); [exact Hs | apply same_disk_log]. }
    pose proof (load_result_same _ _ p Ht) as Hr. unfold load_result in Hr.
    destruct (ro_load p (log (SysStat p) s)) as [D1 _].
    destruct (ro_load p (log (SysStat p) s')) as [D2 _].
    destruct (_load_config_from_file p (log (SysStat p) s)) as [r1 s1].
    destruct (_load_config_from_file p (log (SysStat p) s')) as [r2 s2].
    simpl in Hr, D1, D2. subst r2. destruct r1 as [c|e]; [|reflexivity].
    destruct (is_empty_config c); [|reflexivity].
    apply IH.
    apply (same_disk_trans _ (log (SysStat p) s)); [apply same_disk_sym, D1|].
    apply (same_disk_trans _ (log (SysStat p) s')); [exact Ht | exact D2].
  - apply IH.
    apply (same_disk_trans _ s); [apply same_disk_sym, same_disk_log|].
    apply (same_disk_trans _ s'); [exact Hs | apply same_disk_log].
Qed.

Lemma candidates_same s s' : same_disk s s' -> candidates s' = candidates s.
Proof. intros (_ & _ & Hg). unfold candidates. rewrite Hg. reflexivity. Qed.

Lemma read_cfg_same cfg_path s s' :
  same_disk s s' -> fst (read_cfg cfg_path s') = fst (read_cfg cfg_path s).
Proof.
  intros Hs. destruct cfg_path as [p|].
  - rewrite !read_cfg_explicit, (is_file_same _ _ _ Hs).
    destruct (is_file s p); [|reflexivity].
    assert (Ht : same_disk (log (SysStat p) s) (log (SysStat p) s')).
    { apply (same_disk_trans _ s); [apply same_disk_sym, same_disk_log|].
      apply (same_disk_trans _ s'); [exact Hs | apply same_disk_log]. }
    pose proof (load_result_same _ _ p Ht) as Hr. unfold load_result in Hr.
    destruct (_load_config_from_file p (log (SysStat p) s)) as [r1 s1].
    destruct (_load_config_from_file p (log (SysStat p) s')) as [r2 s2].
    simpl in Hr. subst r2. destruct r1 as [c|e]; [|reflexivity].
    destruct (is_empty_config c); reflexivity.
  - rewrite !read_cfg_default, !find_unfold, (candidates_same _ _ Hs).
    assert (Ht : same_disk (log SysGitRevParse s) (log SysGitRevParse s')).
    { apply (same_disk_trans _ s); [apply same_disk_sym, same_disk_log|].
      apply (same_disk_trans _ s'); [exact Hs | apply same_disk_log]. }
    pose proof (search_loop_same (candidates s) _ _ Ht) as Hr.
    destruct (search_loop (candidates s) (log SysGitRevParse s)) as [r1 s1].
    destruct (search_loop (candidates s) (log SysGitRevParse s')) as [r2 s2].
    simpl in Hr. subst r2. destruct r1 as [[c|]|e]; reflexivity.
Qed.

(** The three ways a run of the loop can end. *)
Lemma search_loop_outcome l :
  forall s,
    (forallb (skips s) l = true /\ fst (search_loop l s) = Ok None)
    \/ (exists pre c post conf,
          l = pre ++ c :: post /\ forallb (skips s) pre = true
          /\ is_file s c = true /\ load_result s c = Ok conf
          /\ is_empty_config conf = false
          /\ fst (search_loop l s) = Ok (Some conf))
    \/ (exists pre c post e,
          l = pre ++ c :: post /\ forallb (skips s) pre = true
          /\ is_file s c = true /\ load_result s c = Raise e
          /\ fst (search_loop l s) = Raise e).
Proof.
  induction l as [|p l IH]; intros s; [left; split; reflexivity|].
  destruct (skips s p) eqn:Hk.
  - destruct (search_loop_skip p s Hk) as (s1 & D1 & E1). rewrite E1.
    destruct (IH s1) as [[Hall Hr] | [(pre & c & post & conf & Hl & Hpre & Hf & Hld & He & Hr)
                                     | (pre & c & post & e & Hl & Hpre & Hf & Hld & Hr)]].
    + left. split; [|exact Hr]. simpl. rewrite Hk.
      rewrite <- (forallb_skips_same _ _ l D1). exact Hall.
    + right; left. exists (p :: pre), c, post, conf. subst l. repeat split.
      * simpl. rewrite Hk. rewrite <- (forallb_skips_same _ _ pre D1). exact Hpre.
      * rewrite <- (is_file_same _ _ c D1). exact Hf.
      * rewrite <- (load_result_same _ _ c D1). exact Hld.
      * exact He.
      * exact Hr.
    + right; right. exists (p :: pre), c, post, e. subst l. repeat split.
      * simpl. rewrite Hk. rewrite <- (forallb_skips_same _ _ pre D1). exact Hpre.
      * rewrite <- (is_file_same _ _ c D1). exact Hf.
      * rewrite <- (load_result_same _ _ c D1). exact Hld.
      * exact Hr.
  - unfold skips in Hk. apply orb_false_iff in Hk as [Hf Hl].
    apply negb_false_iff in Hf.
    destruct (load_result s p) as [conf|e] eqn:Hld.
    + right; left. exists [], p, l, conf. repeat split; try assumption.
      apply search_loop_hit; assumption.
    + right; right. exists [], p, l, e. repeat split; try assumption.
      apply (search_loop_raise p l e s Hf Hld).
Qed.

End Outcomes.

Section Further.
Context `{Adapters}.

Lemma ro_read_cfg cfg_path : read_only_comp (read_cfg cfg_path).
Proof.
  unfold read_cfg. apply ro_bind.
  - destruct cfg_path as [p|]; [|apply ro_find].
    apply ro_bind; [apply ro_exists | intros found].
    destruct found; simpl; [|apply ro_raise].
    apply ro_bind; [apply ro_load | intros c].
    destruct (is_empty_config c); [apply ro_raise | apply ro_ret].
  - intros [c|]; apply ro_ret.
Qed.

Lemma dot_truediv x : pathlib.of_str "." </> x = x.
Proof.
  unfold pathlib.truediv. destruct (String.eqb (root x) "") eqn:E; [|reflexivity].
  apply String.eqb_eq in E. destruct x as [r ps]. simpl in *. subst r. reflexivity.
Qed.

Lemma cfg_paths_dot :
  cfg_paths [pathlib.of_str "."] = map pathlib.of_str config_files.
Proof.
  rewrite cfg_paths_cons. change (cfg_paths []) with (@nil Path). rewrite app_nil_r.
  apply map_ext. intros f. apply dot_truediv.
Qed.

Lemma candidates_split s :
  candidates s
  = cfg_paths [pathlib.of_str "."]
    ++ match git_toplevel s with
       | Some r => cfg_paths [r]
       | None => []
       end.
Proof.
  unfold candidates, cfg_search_paths.
  destruct (git_toplevel s) as [r|]; simpl; rewrite ?app_nil_r; reflexivity.
Qed.

(** The calls of the loop: the existence tests follow the candidates in
    order, and each candidate costs at most three calls. *)
Lemma search_loop_calls l :
  forall s,
    exists calls,
      trace (snd (search_loop l s)) = trace s ++ calls
      /\ (exists rest, l = stat_paths calls ++ rest)
      /\ length calls <= 3 * length (stat_paths calls).
Proof.
  induction l as [|p l IH]; intros s.
  - exists []. simpl. rewrite app_nil_r. repeat split; [exists []; reflexivity | lia].
  - rewrite search_loop_cons. destruct (is_file s p).
    + destruct (load_calls p (log (SysStat p) s)) as (cs & Htr & Hst & Hlen & _).
      destruct (_load_config_from_file p (log (SysStat p) s)) as [[c|e] s1];
        cbn [snd log trace] in Htr.
      * destruct (is_empty_config c).
        -- destruct (IH s1) as (calls & Hc & [rest Hrest] & Hn).
           exists (SysStat p :: cs ++ calls). repeat split.
           ++ rewrite Hc, Htr, <- !app_assoc. reflexivity.
           ++ exists rest. simpl. rewrite stat_paths_app, Hst. simpl. congruence.
           ++ simpl. rewrite stat_paths_app, Hst, length_app. simpl. lia.
        -- exists (SysStat p :: cs). cbn [snd]. repeat split.
           ++ rewrite Htr, <- app_assoc. reflexivity.
           ++ exists l. simpl. rewrite Hst. reflexivity.
           ++ simpl. rewrite Hst. simpl. lia.
      * exists (SysStat p :: cs). cbn [snd]. repeat split.
        -- rewrite Htr, <- app_assoc. reflexivity.
        -- exists l. simpl. rewrite Hst. reflexivity.
        -- simpl. rewrite Hst. simpl. lia.
    + destruct (IH (log (SysStat p) s)) as (calls & Hc & [rest Hrest] & Hn).
      exists (SysStat p :: calls). repeat split.
      * rewrite Hc. cbn [log trace]. rewrite <- app_assoc. reflexivity.
      * exists rest. simpl. congruence.
      * simpl. lia.
Qed.

(** X1. With an explicit path [read_cfg] touches that path only: its calls
    are an initial part of "test, open, read" on the given path, so the git
    collaborator is never asked and no default file is probed. *)
Theorem explicit_path_touches_only_that_path s p :
  exists calls,
    trace (snd (read_cfg (Some p) s)) = trace s ++ calls
    /\ calls `prefix_of` [SysStat p; SysOpen p mode_rb; SysRead (resolve s p)].
Proof.
  rewrite read_cfg_explicit. destruct (is_file s p).
  - destruct (load_calls p (log (SysStat p) s)) as (cs & Htr & _ & _ & [k Hk]).
    exists (SysStat p :: cs). split.
    + destruct (_load_config_from_file p (log (SysStat p) s)) as [[c|e] s1];
        cbn [snd log trace] in Htr; [destruct (is_empty_config c)|];
        cbn [snd]; rewrite Htr, <- app_assoc; reflexivity.
    + exists k. change (resolve (log (SysStat p) s) p) with (resolve s p) in Hk.
      rewrite Hk. reflexivity.
  - exists [SysStat p]. split; [reflexivity|].
    exists [SysOpen p mode_rb; SysRead (resolve s p)]. reflexivity.
Qed.

(** X2. The four outcomes of [read_cfg] with an explicit path: the path is
    missing ("not exists" error); it exists and loading raises (that
    exception, e.g. the invalid-extension one, is passed on unchanged); it
    loads with an empty section ("Fill it" error); it loads with a section
    (that handle is returned). *)
Theorem explicit_path_outcome s p :
  (is_file s p = false /\ fst (read_cfg (Some p) s) = Raise (not_exists_error p))
  \/ (exists e, is_file s p = true /\ load_result s p = Raise e
                /\ fst (read_cfg (Some p) s) = Raise e)
  \/ (exists conf, load_result s p = Ok conf /\ is_empty_config conf = true
                   /\ fst (read_cfg (Some p) s) = Raise (empty_config_error p))
  \/ (exists conf, load_result s p = Ok conf /\ is_empty_config conf = false
                   /\ fst (read_cfg (Some p) s) = Ok conf).
Proof.
  rewrite read_cfg_explicit.
  pose proof (load_result_same _ _ p (same_disk_log (SysStat p) s)) as Hr.
  unfold load_result in Hr at 1.
  destruct (is_file s p) eqn:Hf; [|left; split; reflexivity].
  right. destruct (_load_config_from_file p (log (SysStat p) s)) as [[c|e] s1];
    simpl in Hr.
  - right. destruct (is_empty_config c) eqn:He.
    + left. exists c. repeat split; [symmetry; exact Hr | exact He].
    + right. exists c. repeat split; [symmetry; exact Hr | exact He].
  - left. exists e. repeat split. symmetry. exact Hr.
Qed.

(** X3. The three outcomes of the default search: every candidate is
    missing or empty and the search finds nothing; or the candidates split
    at the first populated one, which is returned; or they split at the
    first existing candidate whose load raises, and that exception is the
    outcome. *)
Theorem default_search_outcome s :
  (forallb (skips s) (candidates s) = true
   /\ fst (_find_config_from_defaults s) = Ok None)
  \/ (exists pre c post conf,
        candidates s = pre ++ c :: post /\ forallb (skips s) pre = true
        /\ is_file s c = true /\ load_result s c = Ok conf
        /\ is_empty_config conf = false
        /\ fst (_find_config_from_defaults s) = Ok (Some conf))
  \/ (exists pre c post e,
        candidates s = pre ++ c :: post /\ forallb (skips s) pre = true
        /\ is_file s c = true /\ load_result s c = Raise e
        /\ fst (_find_config_from_defaults s) = Raise e).
Proof.
  rewrite find_unfold.
  pose proof (same_disk_log SysGitRevParse s) as D.
  destruct (search_loop_outcome (candidates s) (log SysGitRevParse s))
    as [[Hall Hr] | [(pre & c & post & conf & Hl & Hpre & Hf & Hld & He & Hr)
                    | (pre & c & post & e & Hl & Hpre & Hf & Hld & Hr)]].
  - left. split; [|exact Hr]. rewrite <- (forallb_skips_same _ _ _ D). exact Hall.
  - right; left. exists pre, c, post, conf.
    rewrite (forallb_skips_same _ _ _ D) in Hpre.
    rewrite (is_file_same _ _ _ D) in Hf.
    rewrite (load_result_same _ _ _ D) in Hld.
    repeat split; assumption.
  - right; right. exists pre, c, post, e.
    rewrite (forallb_skips_same _ _ _ D) in Hpre.
    rewrite (is_file_same _ _ _ D) in Hf.
    rewrite (load_result_same _ _ _ D) in Hld.
    repeat split; assumption.
Qed.

(** X4. A handle returned by [read_cfg] is never an empty one read from a
    file: with an explicit path it is the non-empty handle loaded from that
    path; without one it is either the defaults-only handle or the
    non-empty handle loaded from an existing default candidate. *)
Theorem read_cfg_returns_populated_or_defaults cfg_path s conf :
  fst (read_cfg cfg_path s) = Ok conf ->
  match cfg_path with
  | Some p =>
      is_file s p = true /\ load_result s p = Ok conf /\ is_empty_config conf = false
  | None =>
      conf = BaseConfig
      \/ exists c, In c (candidates s) /\ is_file s c = true
                   /\ load_result s c = Ok conf /\ is_empty_config conf = false
  end.
Proof.
  intros Hok. destruct cfg_path as [p|].
  - rewrite read_cfg_explicit in Hok.
    pose proof (load_result_same _ _ p (same_disk_log (SysStat p) s)) as Hr.
    unfold load_result in Hr at 1.
    destruct (is_file s p) eqn:Hf; [|discriminate].
    destruct (_load_config_from_file p (log (SysStat p) s)) as [[c|e] s1];
      simpl in Hr; [|discriminate].
    destruct (is_empty_config c) eqn:He; [discriminate|].
    simpl in Hok. injection Hok as ->.
    repeat split; [symmetry; exact Hr | exact He].
  - rewrite read_cfg_default, find_unfold in Hok.
    pose proof (same_disk_log SysGitRevParse s) as D.
    destruct (search_loop_outcome (candidates s) (log SysGitRevParse s))
      as [[Hall Hr] | [(pre & c & post & cf & Hl & Hpre & Hf & Hld & He & Hr)
                      | (pre & c & post & e & Hl & Hpre & Hf & Hld & Hr)]];
      destruct (search_loop (candidates s) (log SysGitRevParse s)) as [[[c'|]|x] s'];
      simpl in Hr; try discriminate; simpl in Hok.
    + left. congruence.
    + right. exists c. injection Hr as ->. injection Hok as ->.
      rewrite (is_file_same _ _ _ D) in Hf.
      rewrite (load_result_same _ _ _ D) in Hld.
      repeat split; try assumption.
      rewrite Hl. apply in_or_app. right. left. reflexivity.
Qed.


(** X6. A default-mode [read_cfg] makes at most one git query plus three
    file-system calls for each default file name in each of at most two
    directories. *)
Theorem default_search_call_bound s :
  exists calls,
    trace (snd (read_cfg None s)) = trace s ++ calls
    /\ length calls <= 1 + 6 * length config_files.
Proof.
  rewrite read_cfg_default, find_unfold.
  destruct (search_loop_calls (candidates s) (log SysGitRevParse s))
    as (calls & Htr & [rest Hrest] & Hlen).
  exists (SysGitRevParse :: calls). split.
  - destruct (search_loop (candidates s) (log SysGitRevParse s)) as [[[c|]|e] s'];
      cbn [snd log trace] in *; rewrite Htr, <- app_assoc; reflexivity.
  - assert (Hc : length (stat_paths calls) <= length (candidates s)).
    { rewrite Hrest, length_app. lia. }
    assert (Hn : length (candidates s) <= 2 * length config_files).
    { unfold candidates. rewrite cfg_paths_length. unfold cfg_search_paths.
      destruct (git_toplevel s); simpl; lia. }
    simpl. lia.
Qed.

(** X7. The working directory wins: when the candidates of the working
    directory alone reach a populated file, [read_cfg] returns it whatever
    the git collaborator answers and whatever the git root holds. *)
Theorem working_directory_wins s pre c post conf :
  cfg_paths [pathlib.of_str "."] = pre ++ c :: post ->
  forallb (skips s) pre = true ->
  is_file s c = true ->
  load_result s c = Ok conf ->
  is_empty_config conf = false ->
  fst (read_cfg None s) = Ok conf.
Proof.
  intros Hc Hpre Hf Hl He.
  assert (Hfind : fst (_find_config_from_defaults s) = Ok (Some conf)).
  { rewrite find_unfold, candidates_split, Hc, <- app_assoc, <- app_comm_cons.
    pose proof (same_disk_log SysGitRevParse s) as D0.
    rewrite <- (forallb_skips_same _ _ pre D0) in Hpre.
    destruct (search_loop_skip_all pre _ Hpre) as (s1 & D1 & E1). rewrite E1.
    pose proof (same_disk_trans _ _ _ D0 D1) as D.
    apply search_loop_hit.
    - rewrite (is_file_same _ _ _ D). exact Hf.
    - rewrite (load_result_same _ _ _ D). exact Hl.
    - exact He. }
  rewrite read_cfg_default.
  destruct (_find_config_from_defaults s) as [[[c'|]|e] s']; simpl in Hfind;
    try discriminate.
  injection Hfind as ->. reflexivity.
Qed.

(** X8. Because [Path(".") / name] is [Path(name)], the candidates of the
    working directory are the default file names themselves, and those of
    the git root, if any, follow as root-joined names in the same order. *)
Theorem candidates_are_names_then_rooted_names s :
  candidates s
  = map pathlib.of_str config_files
    ++ match git_toplevel s with
       | Some r => map (fun filename => r </> pathlib.of_str filename) config_files
       | None => []
       end.
Proof.
  rewrite candidates_split, cfg_paths_dot.
  destruct (git_toplevel s) as [r|]; [|reflexivity].
  rewrite cfg_paths_cons. change (cfg_paths []) with (@nil Path).
  rewrite app_nil_r. reflexivity.
Qed.

(** X9. The loader opens the file before it looks at the extension: on a
    missing path it raises [FileNotFoundError] after the single [open]
    call, whatever the suffix, and no adapter is called. *)
Theorem loader_missing_file s p :
  is_file s p = false ->
  _load_config_from_file p s
  = (Raise (FileNotFoundError p), log (SysOpen p mode_rb) s).
Proof.
  intros Hf. apply is_file_false in Hf.
  unfold on_disk in Hf. unfold _load_config_from_file, bind, open_.
  rewrite Hf. reflexivity.
Qed.

(** X10. A name without an extension is rejected: when the last dot of the
    final component is absent, leads the name or ends it (as in "toml",
    ".toml" or "cz.toml."), the suffix is empty and the loader raises the
    invalid-extension error for an existing file. *)
Theorem loader_rejects_names_without_extension s p data :
  on_disk s p = Some data ->
  PyStr.rfind "." (pathlib.name p) = None
  \/ PyStr.rfind "." (pathlib.name p) = Some 0
  \/ PyStr.rfind "." (pathlib.name p) = Some (String.length (pathlib.name p) - 1) ->
  pathlib.suffix p = "" /\ load_result s p = Raise invalid_extension.
Proof.
  intros Hd Hdot.
  assert (Hs : pathlib.suffix p = "").
  { unfold pathlib.suffix. cbv zeta. destruct Hdot as [-> | [-> | ->]]; [reflexivity..|].
    rewrite Nat.ltb_irrefl, andb_false_r. reflexivity. }
  split; [exact Hs|].
  unfold load_result. rewrite (load_existing s p data Hd), Hs. reflexivity.
Qed.

(** X11. The extensions of the docstring: on an existing file a suffix
    ".toml", ".json" or ".yaml" selects the TOML, JSON or YAML adapter
    respectively, while the suffix ".yml" is not recognised. *)
Theorem loader_canonical_extensions s p data :
  on_disk s p = Some data ->
  (pathlib.suffix p = ".toml" -> load_result s p = TomlConfig data p)
  /\ (pathlib.suffix p = ".json" -> load_result s p = JsonConfig data p)
  /\ (pathlib.suffix p = ".yaml" -> load_result s p = YAMLConfig data p)
  /\ (pathlib.suffix p = ".yml" -> load_result s p = Raise invalid_extension).
Proof.
  intros Hd. unfold load_result. rewrite (load_existing s p data Hd). cbn [fst].
  repeat split; intros ->; reflexivity.
Qed.

(** X12. Resolutions do not disturb one another: after any call of
    [read_cfg], successful or not, a further call yields what it would have
    yielded in the initial state. *)
Theorem resolution_is_repeatable first_path cfg_path s :
  fst (read_cfg cfg_path (snd (read_cfg first_path s))) = fst (read_cfg cfg_path s).
Proof.
  apply read_cfg_same. apply (ro_read_cfg first_path s).
Qed.

End Further.

(** ** The contract at work on concrete disks *)

#[local] Existing Instance Demo.defaults.
#[local] Existing Instance Demo.adapters.

Lemma default_search_first_populated_witness :
  fst (read_cfg (H0 := Demo.adapters) None Demo.in_subdirectory)
  = Ok (Demo.jira (Demo.repo </> Demo.cz_toml)).
Proof.
  apply (default_search_first_populated (H0 := Demo.adapters) Demo.in_subdirectory
           [Demo.pyproject; Demo.cz_toml; Demo.repo </> Demo.pyproject]
           (Demo.repo </> Demo.cz_toml) []
           (Demo.jira (Demo.repo </> Demo.cz_toml)));
    vm_compute; reflexivity.
Defined.

Lemma explicit_path_missing_witness :
  is_file Demo.odd_names (pathlib.of_str "file.yaml") = false
  /\ fst (read_cfg (H0 := Demo.adapters) (Some (pathlib.of_str "file.yaml")) Demo.odd_names)
     = Raise (InvalidConfigurationError "File file.yaml not exists.").
Proof.
  split; [vm_compute; reflexivity|].
  rewrite (explicit_path_missing (H0 := Demo.adapters) Demo.odd_names
             (pathlib.of_str "file.yaml")); [reflexivity | vm_compute; reflexivity].
Defined.

Lemma explicit_path_empty_section_witness :
  fst (read_cfg (H0 := Demo.adapters) (Some (pathlib.of_str "file.toml")) Demo.odd_names)
  = Raise (InvalidConfigurationError
             "File file.toml doesn't contain any configuration. Fill it or don't use --config-file option.").
Proof.
  apply (explicit_path_empty_section (H0 := Demo.adapters) Demo.odd_names
           (pathlib.of_str "file.toml") (Demo.blank (pathlib.of_str "file.toml")));
    vm_compute; reflexivity.
Defined.

Lemma default_search_falls_back_to_defaults_witness :
  fst (_find_config_from_defaults (H0 := Demo.adapters) Demo.empty_disk) = Ok None
  /\ exists conf,
       fst (read_cfg (H0 := Demo.adapters) None Demo.empty_disk) = Ok conf
       /\ settings conf = DEFAULT_SETTINGS
       /\ path conf = None.
Proof.
  apply (default_search_falls_back_to_defaults (H0 := Demo.adapters) Demo.empty_disk).
  vm_compute; reflexivity.
Defined.

Lemma empty_candidate_then_populated_witness :
  fst (read_cfg (H0 := Demo.adapters) None Demo.manifest_then_dotfile)
  = Ok (Demo.jira Demo.cz_toml)
  /\ fst (_find_config_from_defaults (H0 := Demo.adapters) Demo.manifest_then_dotfile)
     <> Ok None.
Proof.
  apply (empty_candidate_then_populated (H0 := Demo.adapters) Demo.manifest_then_dotfile
           [] Demo.pyproject [] Demo.cz_toml []
           (Demo.blank Demo.pyproject) (Demo.jira Demo.cz_toml));
    vm_compute; reflexivity.
Defined.

Lemma default_search_propagates_load_error_witness :
  fst (read_cfg (H0 := Demo.adapters) None Demo.broken_manifest)
  = Raise (InvalidConfigurationError "Failed to parse pyproject.toml: invalid toml").
Proof.
  apply (default_search_propagates_load_error (H0 := Demo.adapters) Demo.broken_manifest
           [] Demo.pyproject [Demo.cz_toml]
           (InvalidConfigurationError "Failed to parse pyproject.toml: invalid toml"));
    vm_compute; reflexivity.
Defined.

Lemma loader_selects_by_suffix_substring_witness :
  load_result (H0 := Demo.adapters) Demo.odd_names (pathlib.of_str "file.txt")
  = Raise invalid_extension.
Proof.
  apply (loader_selects_by_suffix_substring (H0 := Demo.adapters) Demo.odd_names
           (pathlib.of_str "file.txt") []); vm_compute; reflexivity.
Defined.

Lemma json_substring_is_tested_on_last_extension_witness :
  load_result (H0 := Demo.adapters) Demo.odd_names (pathlib.of_str "config.json.bak")
  = Raise invalid_extension.
Proof.
  apply (json_substring_is_tested_on_last_extension (H0 := Demo.adapters) Demo.odd_names
           (pathlib.of_str "config.json.bak") (Demo.data_of "cz_jira"));
    [vm_compute; reflexivity | left; vm_compute; reflexivity].
Defined.

(** ** Where the code departs from the specification's wording *)

(** In a working directory that is the git root, the root is still added
    to the directory list, and each default file is probed twice. *)
Lemma git_root_equal_to_cwd_is_listed :
  git_toplevel Demo.at_git_root = Some (cwd Demo.at_git_root)
  /\ cfg_search_paths (git_toplevel Demo.at_git_root) = [pathlib.of_str "."; Demo.repo]
  /\ spec_search_paths (cwd Demo.at_git_root) (git_toplevel Demo.at_git_root)
     = [pathlib.of_str "."]
  /\ cfg_search_paths (git_toplevel Demo.at_git_root)
     <> spec_search_paths (cwd Demo.at_git_root) (git_toplevel Demo.at_git_root)
  /\ trace (snd (read_cfg (H0 := Demo.adapters) None Demo.at_git_root))
     = [SysGitRevParse;
        SysStat Demo.pyproject; SysStat Demo.cz_toml;
        SysStat (Demo.repo </> Demo.pyproject); SysStat (Demo.repo </> Demo.cz_toml)].
Proof.
  split; [reflexivity|]. split; [reflexivity|]. split; [reflexivity|].
  split; [vm_compute; discriminate | vm_compute; reflexivity].
Qed.

(** "config.json.bak" does not match "json": its suffix is ".bak", and the
    loader rejects the file instead of calling the JSON adapter. *)
Lemma config_json_bak_does_not_match_json :
  ~ (PyStr.contains "json" (pathlib.suffix (pathlib.of_str "config.json.bak")) = true
     /\ PyStr.contains "json" (pathlib.suffix (pathlib.of_str "jsonfile.txt")) = false)
  /\ pathlib.suffix (pathlib.of_str "config.json.bak") = ".bak"
  /\ on_disk Demo.odd_names (pathlib.of_str "config.json.bak")
     = Some (Demo.data_of "cz_jira")
  /\ load_result (H0 := Demo.adapters) Demo.odd_names (pathlib.of_str "config.json.bak")
     = Raise invalid_extension
  /\ load_result (H0 := Demo.adapters) Demo.odd_names (pathlib.of_str "config.json.bak")
     <> JsonConfig (Demo.data_of "cz_jira") (pathlib.of_str "config.json.bak").
Proof.
  split; [intros [Hm _]; vm_compute in Hm; discriminate|].
  split; [reflexivity|]. split; [vm_compute; reflexivity|].
  split; [vm_compute; reflexivity | vm_compute; discriminate].
Qed.

(** ** The further properties at work *)

Lemma read_cfg_returns_populated_or_defaults_witness :
  Demo.jira Demo.cz_toml = BaseConfig
  \/ exists c, In c (candidates Demo.manifest_then_dotfile)
               /\ is_file Demo.manifest_then_dotfile c = true
               /\ load_result Demo.manifest_then_dotfile c = Ok (Demo.jira Demo.cz_toml)
               /\ is_empty_config (Demo.jira Demo.cz_toml) = false.
Proof.
  apply (read_cfg_returns_populated_or_defaults None Demo.manifest_then_dotfile
           (Demo.jira Demo.cz_toml)).
  vm_compute; reflexivity.
Defined.

Lemma working_directory_wins_witness :
  fst (read_cfg None Demo.both_configured) = Ok (Demo.handle "cz_local" Demo.cz_toml).
Proof.
  apply (working_directory_wins Demo.both_configured
           [Demo.pyproject] Demo.cz_toml [] (Demo.handle "cz_local" Demo.cz_toml));
    vm_compute; reflexivity.
Defined.

Lemma loader_missing_file_witness :
  fst (_load_config_from_file (pathlib.of_str "missing.txt") Demo.odd_names)
  = Raise (FileNotFoundError (pathlib.of_str "missing.txt")).
Proof.
  rewrite (loader_missing_file Demo.odd_names (pathlib.of_str "missing.txt"));
    [reflexivity | vm_compute; reflexivity].
Defined.

Lemma loader_rejects_names_without_extension_witness :
  pathlib.suffix (pathlib.of_str ".toml") = ""
  /\ load_result Demo.bare_names (pathlib.of_str ".toml") = Raise invalid_extension.
Proof.
  apply (loader_rejects_names_without_extension Demo.bare_names
           (pathlib.of_str ".toml") (Demo.data_of "cz_jira"));
    [vm_compute; reflexivity | right; left; vm_compute; reflexivity].
Defined.

Lemma loader_canonical_extensions_witness :
  load_result Demo.odd_names (pathlib.of_str "file.toml")
  = TomlConfig [] (pathlib.of_str "file.toml").
Proof.
  apply (loader_canonical_extensions Demo.odd_names (pathlib.of_str "file.toml") []);
    vm_compute; reflexivity.
Defined.
